(** * content-fetch: the save-request handler

    A shallow embedding of [packages/content-fetch/src/request_handler.ts]
    (the Express handler [contentFetchRequestHandler] and its helpers) and
    the properties of its fetch / store / fan-out / report pipeline.

    The handler is sequential: every [await] is modelled as a call whose
    outcome (resolved value or thrown value) is supplied by the environment.
    Calls to collaborators are recorded, in order, in a trace of events. *)

From stdpp Require Import base numbers list strings.

Open Scope Z_scope.
Open Scope string_scope.

(** ** JavaScript values used by the handler *)

(** An optional string property ([x?: string]) is [option string].  In a
    boolean position ([if (x)], [!!x], [x || d], [x ? a : b]) JavaScript takes
    [undefined] and the empty string as false: [nonempty] keeps the value
    only when it is truthy. *)
Definition nonempty (o : option string) : option string :=
  match o with
  | Some (String a s) => Some (String a s)
  | _ => None
  end.

Definition truthy (o : option string) : bool :=
  match nonempty o with Some _ => true | None => false end.

(** [x || d] on an optional string. *)
Definition or_default (o : option string) (d : string) : string :=
  match nonempty o with Some s => s | None => d end.

(** What a [catch] clause can receive: an [Error] object, of which the
    handler reads [message], or any other thrown value. *)
Inductive JsThrown : Type :=
| JsError (message : string)
| JsNonError.

(** ** Data model (lines 8-49) *)

Record User : Type := mkUser {
  u_id : string;
  u_folder : option string
}.

Inductive Priority : Type := high | low.

Record RequestBody : Type := mkRequestBody {
  req_url : string;
  req_userId : option string;
  req_saveRequestId : string;
  req_state : option string;
  req_labels : option (list string);
  req_source : option string;
  req_taskId : option string;
  req_locale : option string;
  req_timezone : option string;
  req_rssFeedUrl : option string;
  req_savedAt : option string;
  req_publishedAt : option string;
  req_folder : option string;
  req_users : option (list User);
  req_priority : Priority
}.

Record LogRecord : Type := mkLogRecord {
  log_url : string;
  log_articleSavingRequestId : string;
  log_labels_source : string;
  log_state : option string;
  log_labelsToAdd : option (list string);
  log_taskId : option string;
  log_locale : option string;
  log_timezone : option string;
  log_rssFeedUrl : option string;
  log_savedAt : option string;
  log_publishedAt : option string;
  log_folder : option string;
  log_users : option (list User);
  log_error : option string;
  log_totalTime : option Z
}.

(** Modelled from the spec: the value [fetchContent] of
    [@omnivore/puppeteer-parse] resolves to; the package is not part of the
    sources at hand.  The spec gives [{finalUrl, title, content?, contentType}]. *)
Record FetchResult : Type := mkFetchResult {
  fr_finalUrl : string;
  fr_title : string;
  fr_content : option string;
  fr_contentType : string
}.

(** The [data] object of a save-page job (lines 130-146). *)
Record JobData : Type := mkJobData {
  data_userId : string;
  data_url : string;
  data_finalUrl : string;
  data_articleSavingRequestId : string;
  data_state : option string;
  data_labels : option (list string);
  data_source : string;
  data_folder : option string;
  data_rssFeedUrl : option string;
  data_savedAt : option string;
  data_publishedAt : option string;
  data_taskId : option string;
  data_title : string;
  data_contentType : string;
  data_contentHash : option string
}.

(** One element of [savePageJobs] (lines 128-150). *)
Record SavePageJob : Type := mkSavePageJob {
  job_userId : string;
  job_data : JobData;
  job_isRss : bool;
  job_isImport : bool;
  job_priority : Priority
}.

(** The event handed to [analytics.capture] (lines 169-175). *)
Inductive AnalyticResult : Type := success | failure.

Record AnalyticEvent : Type := mkAnalyticEvent {
  ev_result : AnalyticResult;
  ev_url : string;
  ev_totalTime : option Z
}.

(** ** Effects *)

(** Second argument of a [console.log] call. *)
Inductive LogArg : Type :=
| LogRec (r : LogRecord)
| LogStr (s : string)
| LogNum (n : nat).

(** Every call the handler makes to the outside, with its arguments. *)
Inductive Event : Type :=
| ConsoleLog (label : string) (arg : LogArg)
| FetchContent (url : string) (locale timezone : option string)
| StorageSave (bucket path data : string)
| QueueSavePageJob (jobs : list SavePageJob)
| AnalyticsCapture (userIds : list string) (ev : AnalyticEvent)
| SendStatus (code : Z).

(** The collaborators of one run.  Each is called at most once per run, so
    its answer is a function of the arguments.  [inl e] and [Some e] stand
    for a call that throws (a rejected promise under [await]).
    [analytics.capture] is called without [await]: its answer is [Some e]
    only when the call itself throws; a failure that stays inside the sink
    is the answer [None]. *)
Record Env : Type := mkEnv {
  Date_now : nat -> Z;                      (* the n-th reading of the clock *)
  GCS_UPLOAD_BUCKET : option string;        (* process.env.GCS_UPLOAD_BUCKET *)
  hash : string -> string;                  (* md5 hex digest, line 63 *)
  fetchContent :
    string -> option string -> option string -> JsThrown + FetchResult;
  storage_save : string -> string -> string -> option JsThrown;
  queueSavePageJob : list SavePageJob -> JsThrown + list string;
  analytics_capture : list string -> AnalyticEvent -> option JsThrown
}.

(** The mutable part of a run: the [logRecord] object (assigned to in the
    [catch] and [finally] blocks), the calls made so far and the number of
    clock readings taken. *)
Record World : Type := mkWorld {
  logRecord : LogRecord;
  events : list Event;
  clock_reads : nat
}.

(** How a block of statements ends: normally, by [return], or by a throw. *)
Inductive Completion (A : Type) : Type :=
| Normal (a : A)
| Return
| Throw (e : JsThrown).
Arguments Normal {A} a.
Arguments Return {A}.
Arguments Throw {A} e.

Definition M (A : Type) : Type := World -> Completion A * World.

Definition ret {A : Type} (a : A) : M A := fun w => (Normal a, w).

Definition bind {A B : Type} (m : M A) (k : A -> M B) : M B :=
  fun w =>
    match m w with
    | (Normal a, w') => k a w'
    | (Return, w') => (Return, w')
    | (Throw e, w') => (Throw e, w')
    end.

Declare Scope js_scope.
Delimit Scope js_scope with js.
Notation "'let!' x ':=' m 'in' k" := (bind m (fun x => k))
  (at level 10, x name, m at level 100, k at level 200) : js_scope.
Notation "m ';;;' k" := (bind m (fun _ => k))
  (at level 100, k at level 200, right associativity) : js_scope.
Open Scope js_scope.

Definition js_return {A : Type} : M A := fun w => (Return, w).
Definition js_throw {A : Type} (e : JsThrown) : M A := fun w => (Throw e, w).

(** [try body catch (error) handler finally finalizer]: the handler runs when
    the body throws; the finalizer always runs, after the body or the
    handler has completed (a [return expr] has evaluated [expr] by then), and
    an abrupt completion of the finalizer replaces the pending one. *)
Definition try_catch_finally
    (body : M unit) (handler : JsThrown -> M unit) (finalizer : M unit)
  : M unit :=
  fun w =>
    let '(c1, w1) := body w in
    let '(c2, w2) :=
      match c1 with
      | Throw e => handler e w1
      | _ => (c1, w1)
      end in
    let '(c3, w3) := finalizer w2 in
    match c3 with
    | Normal _ => (c2, w3)
    | _ => (c3, w3)
    end.

Definition emit (e : Event) : M unit :=
  fun w => (Normal tt, mkWorld (logRecord w) (events w ++ [e]) (clock_reads w)).

Definition get_logRecord : M LogRecord := fun w => (Normal (logRecord w), w).

Definition put_logRecord (r : LogRecord) : M unit :=
  fun w => (Normal tt, mkWorld r (events w) (clock_reads w)).

Definition set_error (msg : string) (r : LogRecord) : LogRecord :=
  mkLogRecord (log_url r) (log_articleSavingRequestId r) (log_labels_source r)
    (log_state r) (log_labelsToAdd r) (log_taskId r) (log_locale r)
    (log_timezone r) (log_rssFeedUrl r) (log_savedAt r) (log_publishedAt r)
    (log_folder r) (log_users r) (Some msg) (log_totalTime r).

Definition set_totalTime (t : Z) (r : LogRecord) : LogRecord :=
  mkLogRecord (log_url r) (log_articleSavingRequestId r) (log_labels_source r)
    (log_state r) (log_labelsToAdd r) (log_taskId r) (log_locale r)
    (log_timezone r) (log_rssFeedUrl r) (log_savedAt r) (log_publishedAt r)
    (log_folder r) (log_users r) (log_error r) (Some t).

(** [Date.now()]: the next reading of the clock. *)
Definition now (env : Env) : M Z :=
  fun w =>
    (Normal (Date_now env (clock_reads w)),
     mkWorld (logRecord w) (events w) (S (clock_reads w))).

Definition console_log (label : string) (arg : LogArg) : M unit :=
  emit (ConsoleLog label arg).

Definition res_sendStatus (code : Z) : M unit := emit (SendStatus code).

(** A call that resolves to a value or throws. *)
Definition call {A : Type} (e : Event) (outcome : JsThrown + A) : M A :=
  emit e ;;;
  match outcome with
  | inr a => ret a
  | inl err => js_throw err
  end.

Definition call_void (e : Event) (outcome : option JsThrown) : M unit :=
  emit e ;;;
  match outcome with
  | None => ret tt
  | Some err => js_throw err
  end.

(** ** The handler's helpers *)

(** Line 54. *)
Definition bucketName (env : Env) : string :=
  or_default (GCS_UPLOAD_BUCKET env) "omnivore-files".

(** Lines 56-61. *)
Definition uploadToBucket (env : Env) (filename data : string) : M unit :=
  let path := "originalContent/" ++ filename in
  call_void (StorageSave (bucketName env) path data)
            (storage_save env (bucketName env) path data).

(** Lines 72-82: [body.users || []], replaced by the single user built from
    [body.userId] and [body.folder] when [userId] is truthy.  An array is
    always truthy, so [body.users || []] only replaces [undefined]. *)
Definition users_of (body : RequestBody) : list User :=
  match nonempty (req_userId body) with
  | Some userId => [mkUser userId (req_folder body)]
  | None => default [] (req_users body)
  end.

(** Lines 128-150: the function mapped over [users]. *)
Definition savePageJob (body : RequestBody) (fetchResult : FetchResult)
    (contentHash : option string) (user : User) : SavePageJob :=
  mkSavePageJob
    (u_id user)
    (mkJobData
       (u_id user)
       (req_url body)
       (fr_finalUrl fetchResult)
       (req_saveRequestId body)
       (req_state body)
       (req_labels body)
       (or_default (req_source body) "puppeteer-parse")
       (u_folder user)
       (req_rssFeedUrl body)
       (req_savedAt body)
       (req_publishedAt body)
       (req_taskId body)
       (fr_title fetchResult)
       (fr_contentType fetchResult)
       contentHash)
    (truthy (req_rssFeedUrl body))
    (truthy (req_taskId body))
    (req_priority body).

Definition savePageJobs (body : RequestBody) (fetchResult : FetchResult)
    (contentHash : option string) (users : list User) : list SavePageJob :=
  map (savePageJob body fetchResult contentHash) users.

(** Lines 96-111.  [folder], [error] and [totalTime] are not set. *)
Definition initial_logRecord (body : RequestBody) : LogRecord :=
  mkLogRecord
    (req_url body)
    (req_saveRequestId body)
    (or_default (req_source body) "puppeteer-parse")
    (req_state body)
    (req_labels body)
    (req_taskId body)
    (req_locale body)
    (req_timezone body)
    (req_rssFeedUrl body)
    (req_savedAt body)
    (req_publishedAt body)
    None
    (Some (users_of body))
    None
    None.

(** ** The handler (lines 66-180) *)

(** Lines 118-126: hash and upload the content when there is some. *)
Definition processContent (env : Env) (content : option string)
  : M (option string) :=
  match nonempty content with
  | Some c =>
      let contentHash := hash env c in
      uploadToBucket env contentHash c ;;;
      console_log "content uploaded to bucket" (LogStr contentHash) ;;;
      ret (Some contentHash)
  | None => ret None
  end.

(** Lines 116-153, the [try] block. *)
Definition try_block (env : Env) (body : RequestBody) : M unit :=
  let url := req_url body in
  let locale := req_locale body in
  let timezone := req_timezone body in
  let! fetchResult :=
    call (FetchContent url locale timezone)
         (fetchContent env url locale timezone) in
  let! contentHash := processContent env (fr_content fetchResult) in
  let jobs := savePageJobs body fetchResult contentHash (users_of body) in
  let! handles := call (QueueSavePageJob jobs) (queueSavePageJob env jobs) in
  console_log "save-page jobs queued" (LogNum (length handles)).

(** Lines 155-159: the text stored in [logRecord.error], [error.message]
    when [error instanceof Error] and a fixed text otherwise. *)
Definition error_text (error : JsThrown) : string :=
  match error with
  | JsError message => message
  | JsNonError => "unknown error"
  end.

(** Lines 154-161, the [catch] clause. *)
Definition catch_block (error : JsThrown) : M unit :=
  let! r := get_logRecord in
  put_logRecord (set_error (error_text error) r) ;;;
  res_sendStatus 500 ;;;
  js_return.

(** Lines 162-177, the [finally] block. *)
Definition finally_block (env : Env) (body : RequestBody)
    (functionStartTime : Z) : M unit :=
  let! t := now env in
  let! r := get_logRecord in
  put_logRecord (set_totalTime (t - functionStartTime) r) ;;;
  let! r := get_logRecord in
  console_log "parse-page result" (LogRec r) ;;;
  let ev :=
    mkAnalyticEvent
      (if truthy (log_error r) then failure else success)
      (req_url body)
      (log_totalTime r) in
  let userIds := map u_id (users_of body) in
  call_void (AnalyticsCapture userIds ev) (analytics_capture env userIds ev).

(** The whole handler.  [functionStartTime] is the first reading of the
    clock; [res.sendStatus] is taken to complete normally. *)
Definition contentFetchRequestHandler (env : Env) (body : RequestBody)
  : Completion unit * World :=
  let functionStartTime := Date_now env 0 in
  let logRecord0 := initial_logRecord body in
  (console_log "Article parsing request" (LogRec logRecord0) ;;;
   try_catch_finally
     (try_block env body)
     catch_block
     (finally_block env body functionStartTime) ;;;
   res_sendStatus 200)
    (mkWorld logRecord0 [] 1).

(** ** Reading a trace *)

Definition fetch_calls (t : list Event)
  : list (string * option string * option string) :=
  omap (fun e => match e with
                 | FetchContent u l z => Some (u, l, z)
                 | _ => None
                 end) t.

Definition storage_writes (t : list Event) : list (string * string * string) :=
  omap (fun e => match e with
                 | StorageSave b p d => Some (b, p, d)
                 | _ => None
                 end) t.

Definition submitted (t : list Event) : list (list SavePageJob) :=
  omap (fun e => match e with
                 | QueueSavePageJob js => Some js
                 | _ => None
                 end) t.

Definition captured (t : list Event) : list (list string * AnalyticEvent) :=
  omap (fun e => match e with
                 | AnalyticsCapture ids ev => Some (ids, ev)
                 | _ => None
                 end) t.

Definition statuses (t : list Event) : list Z :=
  omap (fun e => match e with
                 | SendStatus c => Some c
                 | _ => None
                 end) t.

Definition result_logs (t : list Event) : list LogRecord :=
  omap (fun e => match e with
                 | ConsoleLog "parse-page result" (LogRec r) => Some r
                 | _ => None
                 end) t.

(** ** One run *)

Definition trace (env : Env) (body : RequestBody) : list Event :=
  events (contentFetchRequestHandler env body).2.

Definition final_log (env : Env) (body : RequestBody) : LogRecord :=
  logRecord (contentFetchRequestHandler env body).2.

Definition completion (env : Env) (body : RequestBody) : Completion unit :=
  (contentFetchRequestHandler env body).1.

(** What the collaborators answer to the calls of this run. *)
Definition fetch_outcome (env : Env) (body : RequestBody)
  : JsThrown + FetchResult :=
  fetchContent env (req_url body) (req_locale body) (req_timezone body).

Definition upload_outcome (env : Env) (content : string) : option JsThrown :=
  storage_save env (bucketName env)
    ("originalContent/" ++ hash env content) content.

Definition store_succeeds (env : Env) (fetchResult : FetchResult) : Prop :=
  forall c, nonempty (fr_content fetchResult) = Some c ->
            upload_outcome env c = None.

Definition enqueue_outcome (env : Env) (body : RequestBody)
    (fetchResult : FetchResult) : JsThrown + list string :=
  queueSavePageJob env
    (savePageJobs body fetchResult
       (hash env <$> nonempty (fr_content fetchResult)) (users_of body)).

(** ** Sample requests and environments *)

Definition sample_request (userId : option string) (users : option (list User))
    (taskId rssFeedUrl : option string) : RequestBody :=
  mkRequestBody "https://a.com" userId "req-1" None None None taskId None None
    rssFeedUrl None None (Some "inbox") users high.

Definition sample_page (content : option string) : FetchResult :=
  mkFetchResult "https://a.com/amp" "A" content "text/html".

Definition sample_env
    (fetched : JsThrown + FetchResult) (stored : option JsThrown)
    (queued : option JsThrown) (sunk : option JsThrown) : Env :=
  mkEnv (fun n => 1000 + 250 * Z.of_nat n) None (fun c => "md5:" ++ c)
    (fun _ _ _ => fetched)
    (fun _ _ _ => stored)
    (fun jobs => match queued with
                 | Some e => inl e
                 | None => inr (map job_userId jobs)
                 end)
    (fun _ _ => sunk).

Definition u1 : User := mkUser "u1" None.
Definition u2 : User := mkUser "u2" (Some "archive").

(** ** The calls of a run, by kind *)

(** The collaborator a call goes to; [console.log] is left out. *)
Inductive CallKind : Type :=
| FetchCall
| StoreCall
| QueueCall
| SinkCall
| StatusCall (code : Z).

Definition call_kinds (t : list Event) : list CallKind :=
  omap (fun e => match e with
                 | ConsoleLog _ _ => None
                 | FetchContent _ _ _ => Some FetchCall
                 | StorageSave _ _ _ => Some StoreCall
                 | QueueSavePageJob _ => Some QueueCall
                 | AnalyticsCapture _ _ => Some SinkCall
                 | SendStatus c => Some (StatusCall c)
                 end) t.

(** The sequences of calls a run can make: the fetch, the write when there
    is content, the enqueue, then either status 500 followed by the sink
    (a step threw) or the sink followed by status 200 (which is not reached
    when the sink throws). *)
Definition run_shapes : list (list CallKind) :=
  [ [FetchCall; StatusCall 500; SinkCall];
    [FetchCall; StoreCall; StatusCall 500; SinkCall];
    [FetchCall; QueueCall; StatusCall 500; SinkCall];
    [FetchCall; StoreCall; QueueCall; StatusCall 500; SinkCall];
    [FetchCall; QueueCall; SinkCall; StatusCall 200];
    [FetchCall; StoreCall; QueueCall; SinkCall; StatusCall 200];
    [FetchCall; QueueCall; SinkCall];
    [FetchCall; StoreCall; QueueCall; SinkCall] ].

(** What the first failing step of the [try] block throws, read off the
    collaborators' answers in the order the block calls them. *)
Definition pipeline_failure (env : Env) (body : RequestBody)
  : option JsThrown :=
  match fetch_outcome env body with
  | inl e => Some e
  | inr fetchResult =>
      match from_option (upload_outcome env) None
                        (nonempty (fr_content fetchResult)) with
      | Some e => Some e
      | None =>
          match enqueue_outcome env body fetchResult with
          | inl e => Some e
          | inr _ => None
          end
      end
  end.

(** The same request with another top-level [folder]. *)
Definition with_folder (folder : option string) (body : RequestBody)
  : RequestBody :=
  mkRequestBody (req_url body) (req_userId body) (req_saveRequestId body)
    (req_state body) (req_labels body) (req_source body) (req_taskId body)
    (req_locale body) (req_timezone body) (req_rssFeedUrl body)
    (req_savedAt body) (req_publishedAt body) folder (req_users body)
    (req_priority body).

(** ** Proof support *)

Ltac unfold_handler :=
  unfold trace, final_log, completion, contentFetchRequestHandler,
    try_catch_finally, try_block, catch_block, finally_block, processContent,
    uploadToBucket, call, call_void, console_log, res_sendStatus, bind, emit,
    ret, js_throw, js_return, now, get_logRecord, put_logRecord.

Ltac use_outcomes :=
  unfold store_succeeds, fetch_outcome, upload_outcome, enqueue_outcome in *.

(** Split on what a collaborator answers when no hypothesis fixes it. *)
Ltac split_sink env :=
  match goal with
  | |- context [analytics_capture env ?ids ?ev] =>
      destruct (analytics_capture env ids ev); cbn
  end.

Ltac split_queue env :=
  match goal with
  | |- context [queueSavePageJob env ?js] =>
      destruct (queueSavePageJob env js); cbn
  end.

Ltac split_store env :=
  match goal with
  | |- context [storage_save env ?b ?p ?d] =>
      destruct (storage_save env b p d); cbn
  end.

Ltac finish_report env :=
  split_sink env; repeat split; eexists; repeat split.

Ltac finish_sink env :=
  eexists; split; [split_sink env; reflexivity|];
  match goal with
  | |- context [analytics_capture env ?ids ?ev] =>
      destruct (analytics_capture env ids ev); cbn; split; reflexivity
  end.

(** The batches handed to the queue: none, or the one built from the fetch
    result, the digest of its content and the normalized recipients. *)
Lemma submitted_inv (env : Env) (body : RequestBody) :
  submitted (trace env body) = []
  \/ exists fetchResult,
       fetch_outcome env body = inr fetchResult
       /\ submitted (trace env body)
          = [savePageJobs body fetchResult
               (hash env <$> nonempty (fr_content fetchResult))
               (users_of body)].
Proof.
  use_outcomes. unfold_handler.
  destruct (fetchContent env _ _ _) as [e|fr]; cbn.
  - left. split_sink env; reflexivity.
  - destruct (nonempty (fr_content fr)) as [c|] eqn:Hc; cbn.
    + split_store env.
      * left. split_sink env; reflexivity.
      * right. exists fr. rewrite Hc. split; [reflexivity|].
        split_queue env; split_sink env; reflexivity.
    + right. exists fr. rewrite Hc. split; [reflexivity|].
      split_queue env; split_sink env; reflexivity.
Qed.

(** When the fetch and the store succeed, exactly one batch reaches the
    queue, whatever the queue and the sink then answer. *)
Lemma submitted_after_store (env : Env) (body : RequestBody)
    (fetchResult : FetchResult) :
  fetch_outcome env body = inr fetchResult ->
  store_succeeds env fetchResult ->
  submitted (trace env body)
    = [savePageJobs body fetchResult
         (hash env <$> nonempty (fr_content fetchResult)) (users_of body)].
Proof.
  intros Hfetch Hstore. use_outcomes. unfold_handler.
  rewrite Hfetch. cbn.
  destruct (nonempty (fr_content fetchResult)) as [c|] eqn:Hc; cbn.
  - specialize (Hstore c eq_refl). cbn in Hstore. rewrite Hstore. cbn.
    split_queue env; split_sink env; reflexivity.
  - split_queue env; split_sink env; reflexivity.
Qed.

Lemma lookup_map {A B : Type} (f : A -> B) (l : list A) (i : nat) :
  map f l !! i = f <$> (l !! i).
Proof.
  revert i. induction l as [|x l IH]; intros [|i]; cbn; auto.
Qed.

(** ** Recipient validation *)

(** C1, as amended: the handler validates nothing about the recipients.  For
    a request whose normalized recipient list is empty, [fetchContent] is
    still called exactly once, with the request's url, locale and timezone;
    and when the fetch and the store succeed the queue is handed one empty
    batch. *)
Theorem C1_empty_recipients_still_fetch (env : Env) (body : RequestBody) :
  users_of body = [] ->
  fetch_calls (trace env body)
    = [(req_url body, req_locale body, req_timezone body)]
  /\ forall fetchResult,
       fetch_outcome env body = inr fetchResult ->
       store_succeeds env fetchResult ->
       submitted (trace env body) = [[]].
Proof.
  intros Hnone. split.
  - unfold_handler.
    destruct (fetchContent env _ _ _) as [e|fr]; cbn.
    + split_sink env; reflexivity.
    + destruct (nonempty (fr_content fr)) as [c|]; cbn.
      * split_store env; [|split_queue env]; split_sink env; reflexivity.
      * split_queue env; split_sink env; reflexivity.
  - intros fr Hfetch Hstore.
    rewrite (submitted_after_store env body fr Hfetch Hstore), Hnone.
    reflexivity.
Qed.

Lemma C1_empty_recipients_still_fetch_witness :
  users_of (sample_request None None None None) = []
  /\ fetch_calls
       (trace (sample_env (inr (sample_page None)) None None None)
              (sample_request None None None None))
     = [("https://a.com", None, None)].
Proof.
  split; [reflexivity|].
  apply (C1_empty_recipients_still_fetch
           (sample_env (inr (sample_page None)) None None None)
           (sample_request None None None None)).
  reflexivity.
Defined.

(** The claim as stated fails: this request has no recipient, yet the fetch
    is called, an empty batch is queued and status 200 is sent. *)
Lemma C1_counterexample :
  let env := sample_env (inr (sample_page (Some "<html>"))) None None None in
  let body := sample_request None None None None in
  users_of body = []
  /\ fetch_calls (trace env body) <> []
  /\ submitted (trace env body) = [[]]
  /\ statuses (trace env body) = [200]
  /\ log_error (final_log env body) = None.
Proof. cbv zeta. repeat split; try reflexivity. discriminate. Qed.

(** ** Fan-out *)

(** C2: when the recipient list is not empty and the fetch, the store and
    the enqueue succeed, the batch handed to the queue has one job per
    recipient, and the job at position [i] carries the id (at both levels)
    and the folder of the recipient at position [i]. *)
Theorem C2_one_job_per_recipient (env : Env) (body : RequestBody)
    (fetchResult : FetchResult) (handles : list string) :
  users_of body <> [] ->
  fetch_outcome env body = inr fetchResult ->
  store_succeeds env fetchResult ->
  enqueue_outcome env body fetchResult = inr handles ->
  exists jobs,
    submitted (trace env body) = [jobs]
    /\ length jobs = length (users_of body)
    /\ forall (i : nat) (user : User),
         users_of body !! i = Some user ->
         exists job,
           jobs !! i = Some job
           /\ job_userId job = u_id user
           /\ data_userId (job_data job) = u_id user
           /\ data_folder (job_data job) = u_folder user.
Proof.
  intros _ Hfetch Hstore _.
  eexists. split; [apply (submitted_after_store env body _ Hfetch Hstore)|].
  unfold savePageJobs. split; [apply length_map|].
  intros i user Hi. eexists. rewrite lookup_map, Hi. cbn.
  repeat split.
Qed.

Lemma C2_one_job_per_recipient_witness :
  exists jobs,
    submitted
      (trace (sample_env (inr (sample_page (Some "<html>"))) None None None)
             (sample_request None (Some [u1; u2]) None None))
    = [jobs]
    /\ length jobs = 2%nat
    /\ forall (i : nat) (user : User),
         [u1; u2] !! i = Some user ->
         exists job,
           jobs !! i = Some job
           /\ job_userId job = u_id user
           /\ data_userId (job_data job) = u_id user
           /\ data_folder (job_data job) = u_folder user.
Proof.
  apply (C2_one_job_per_recipient
           (sample_env (inr (sample_page (Some "<html>"))) None None None)
           (sample_request None (Some [u1; u2]) None None)
           (sample_page (Some "<html>")) ["u1"; "u2"]).
  - discriminate.
  - reflexivity.
  - intros c Hc. reflexivity.
  - reflexivity.
Defined.

(** ** Reporting *)

(** C3: on every path through the handler the [finally] block runs once.
    The clock is read a second and last time, [logRecord.totalTime] is that
    reading minus [functionStartTime], the record is logged once as the
    result, and [analytics.capture] is called exactly once, with the ids of
    the recipients, the url and that elapsed time. *)
Theorem C3_reporting_runs_once (env : Env) (body : RequestBody) :
  let elapsed := Date_now env 1 - Date_now env 0 in
  clock_reads (contentFetchRequestHandler env body).2 = 2%nat
  /\ log_totalTime (final_log env body) = Some elapsed
  /\ result_logs (trace env body) = [final_log env body]
  /\ exists ev,
       captured (trace env body) = [(map u_id (users_of body), ev)]
       /\ ev_url ev = req_url body
       /\ ev_totalTime ev = Some elapsed.
Proof.
  unfold_handler. cbn.
  destruct (fetchContent env _ _ _) as [e|fr]; cbn.
  - finish_report env.
  - destruct (nonempty (fr_content fr)) as [c|]; cbn.
    + split_store env; [|split_queue env]; finish_report env.
    + split_queue env; finish_report env.
Qed.

(** ** Failures of the pipeline steps *)

(** What a failure of the fetch leads to: nothing is written to the bucket,
    no batch of jobs reaches the queue (none is built: the run leaves the
    [try] block at the fetch), the one status sent is 500, the error's text
    is recorded in [logRecord.error], and the one event given to the sink
    says [failure] only when that text is not empty. *)
Lemma fetch_failure_reported (env : Env) (body : RequestBody)
    (e : JsThrown) :
  fetch_outcome env body = inl e ->
  storage_writes (trace env body) = []
  /\ submitted (trace env body) = []
  /\ statuses (trace env body) = [500]
  /\ log_error (final_log env body) = Some (error_text e)
  /\ exists ev,
       captured (trace env body) = [(map u_id (users_of body), ev)]
       /\ ev_result ev
          = if truthy (Some (error_text e)) then failure else success.
Proof.
  intros Hfetch. use_outcomes. unfold_handler. rewrite Hfetch. cbn.
  split_sink env; repeat split; eexists; split; reflexivity.
Qed.

(** C4, the failing run: [fetchContent] rejects with an [Error] whose
    message is empty.  Nothing is written, no batch reaches the queue and
    status 500 is sent, but the recorded error is the empty string and the
    one event given to the sink says [success]. *)
Theorem C4_fetch_failure_empty_message :
  let env := sample_env (inl (JsError "")) None None None in
  let body := sample_request None (Some [u1; u2]) None None in
  fetch_outcome env body = inl (JsError "")
  /\ storage_writes (trace env body) = []
  /\ submitted (trace env body) = []
  /\ statuses (trace env body) = [500]
  /\ log_error (final_log env body) = Some ""
  /\ captured (trace env body)
     = [(["u1"; "u2"], mkAnalyticEvent success "https://a.com" (Some 250))].
Proof. cbv zeta. repeat split. Qed.

(** What a failure of the write leads to: the write was attempted once, no
    batch of jobs reaches the queue, the one status sent is 500, the
    error's text is recorded in [logRecord.error], and the one event given
    to the sink says [failure] only when that text is not empty. *)
Lemma store_failure_reported (env : Env) (body : RequestBody)
    (fetchResult : FetchResult) (c : string) (e : JsThrown) :
  fetch_outcome env body = inr fetchResult ->
  nonempty (fr_content fetchResult) = Some c ->
  upload_outcome env c = Some e ->
  storage_writes (trace env body)
    = [(bucketName env, "originalContent/" ++ hash env c, c)]
  /\ submitted (trace env body) = []
  /\ statuses (trace env body) = [500]
  /\ log_error (final_log env body) = Some (error_text e)
  /\ exists ev,
       captured (trace env body) = [(map u_id (users_of body), ev)]
       /\ ev_result ev
          = if truthy (Some (error_text e)) then failure else success.
Proof.
  intros Hfetch Hc Hstore. use_outcomes. unfold_handler.
  rewrite Hfetch. cbn. rewrite Hc. cbn.
  cbn in Hstore. rewrite Hstore. cbn.
  split_sink env; repeat split; eexists; split; reflexivity.
Qed.

(** C5, the failing run: the write of the content rejects with an [Error]
    whose message is empty.  No batch reaches the queue and status 500 is
    sent, but the recorded error is the empty string and the one event
    given to the sink says [success]. *)
Theorem C5_store_failure_empty_message :
  let env := sample_env (inr (sample_page (Some "<html>")))
                        (Some (JsError "")) None None in
  let body := sample_request (Some "u1") None None None in
  fetch_outcome env body = inr (sample_page (Some "<html>"))
  /\ upload_outcome env "<html>" = Some (JsError "")
  /\ storage_writes (trace env body)
     = [("omnivore-files", "originalContent/md5:<html>", "<html>")]
  /\ submitted (trace env body) = []
  /\ statuses (trace env body) = [500]
  /\ log_error (final_log env body) = Some ""
  /\ captured (trace env body)
     = [(["u1"], mkAnalyticEvent success "https://a.com" (Some 250))].
Proof. cbv zeta. repeat split. Qed.

(** ** Absent content *)

(** C6: when the fetch succeeds without content, nothing is written to the
    bucket, and the run still hands the queue one batch with a job per
    recipient, each with [contentHash] unset; if the queue accepts the batch,
    no error is recorded for the run. *)
Theorem C6_absent_content (env : Env) (body : RequestBody)
    (fetchResult : FetchResult) :
  fetch_outcome env body = inr fetchResult ->
  fr_content fetchResult = None ->
  storage_writes (trace env body) = []
  /\ exists jobs,
       submitted (trace env body) = [jobs]
       /\ length jobs = length (users_of body)
       /\ Forall (fun job => data_contentHash (job_data job) = None) jobs
       /\ (forall handles,
             queueSavePageJob env jobs = inr handles ->
             log_error (final_log env body) = None).
Proof.
  intros Hfetch Hnone. split.
  - use_outcomes. unfold_handler. rewrite Hfetch. cbn. rewrite Hnone. cbn.
    split_queue env; split_sink env; reflexivity.
  - eexists. split; [|split; [|split]].
    + apply (submitted_after_store env body fetchResult Hfetch).
      intros c Hc. rewrite Hnone in Hc. discriminate.
    + apply length_map.
    + rewrite Hnone. apply Forall_forall. intros job Hjob.
      apply list_elem_of_In, in_map_iff in Hjob.
      destruct Hjob as (user & <- & _). reflexivity.
    + intros handles Hqueue. revert Hqueue. rewrite Hnone.
      use_outcomes. unfold_handler. rewrite Hfetch. cbn. rewrite Hnone. cbn.
      intros ->. cbn. split_sink env; reflexivity.
Qed.

Lemma C6_absent_content_witness :
  storage_writes
    (trace (sample_env (inr (sample_page None)) None None None)
           (sample_request None (Some [u1; u2]) None None)) = []
  /\ exists jobs,
       submitted
         (trace (sample_env (inr (sample_page None)) None None None)
                (sample_request None (Some [u1; u2]) None None)) = [jobs]
       /\ length jobs = 2%nat
       /\ Forall (fun job => data_contentHash (job_data job) = None) jobs
       /\ (forall handles,
             map job_userId jobs = handles ->
             log_error
               (final_log (sample_env (inr (sample_page None)) None None None)
                          (sample_request None (Some [u1; u2]) None None))
             = None).
Proof.
  destruct (C6_absent_content
              (sample_env (inr (sample_page None)) None None None)
              (sample_request None (Some [u1; u2]) None None)
              (sample_page None) eq_refl eq_refl)
    as (Hw & jobs & Hs & Hl & Hh & Hq).
  split; [exact Hw|].
  exists jobs. split; [exact Hs|]. split; [exact Hl|]. split; [exact Hh|].
  intros handles <-. apply (Hq (map job_userId jobs)). reflexivity.
Defined.

(** ** Derived flags *)

(** Every job that reaches the queue was built by [savePageJob] from the
    request of the run. *)
Lemma emitted_job_inv (env : Env) (body : RequestBody)
    (jobs : list SavePageJob) (job : SavePageJob) :
  jobs ∈ submitted (trace env body) ->
  job ∈ jobs ->
  exists fetchResult contentHash user,
    user ∈ users_of body
    /\ job = savePageJob body fetchResult contentHash user.
Proof.
  intros Hjobs Hjob.
  destruct (submitted_inv env body) as [Hs|(fr & _ & Hs)];
    rewrite Hs in Hjobs.
  - apply elem_of_nil in Hjobs. contradiction.
  - apply list_elem_of_singleton in Hjobs. subst jobs.
    apply list_elem_of_In, in_map_iff in Hjob.
    destruct Hjob as (user & <- & Huser).
    exists fr, (hash env <$> nonempty (fr_content fr)), user.
    split; [apply list_elem_of_In; exact Huser | reflexivity].
Qed.

Lemma truthy_spec (o : option string) :
  truthy o = true <-> exists s, o = Some s /\ s <> "".
Proof.
  unfold truthy, nonempty. destruct o as [[|a s]|].
  - split; [discriminate|]. intros (s & [= <-] & Hs). contradiction.
  - split; [|reflexivity]. intros _. eexists. split; [reflexivity|discriminate].
  - split; [discriminate|]. intros (s & [=] & _).
Qed.

(** C7, as amended: for every job that reaches the queue, [isRss] is true
    exactly when the request has an [rssFeedUrl] that is not the empty
    string, and [isImport] is true exactly when it has a [taskId] that is
    not the empty string.  Each flag depends on its own field only. *)
Theorem C7_flags_follow_truthiness (env : Env) (body : RequestBody)
    (jobs : list SavePageJob) (job : SavePageJob) :
  jobs ∈ submitted (trace env body) ->
  job ∈ jobs ->
  (job_isRss job = true
     <-> exists s, req_rssFeedUrl body = Some s /\ s <> "")
  /\ (job_isImport job = true
        <-> exists s, req_taskId body = Some s /\ s <> "").
Proof.
  intros Hjobs Hjob.
  destruct (emitted_job_inv env body jobs job Hjobs Hjob)
    as (fr & h & user & _ & ->).
  cbn. split; apply truthy_spec.
Qed.

(** A request that is both an import and an RSS item: both flags are set. *)
Lemma C7_flags_follow_truthiness_witness :
  let env := sample_env (inr (sample_page None)) None None None in
  let body := sample_request (Some "u1") None (Some "task-7")
                             (Some "https://a.com/feed") in
  let job := savePageJob body (sample_page None) None
                         (mkUser "u1" (Some "inbox")) in
  job_isRss job = true /\ job_isImport job = true.
Proof.
  intros env body job.
  destruct (C7_flags_follow_truthiness env body [job] job) as [Hrss Himport].
  - apply list_elem_of_In. left. reflexivity.
  - apply list_elem_of_In. left. reflexivity.
  - split.
    + apply Hrss. eexists. split; [reflexivity|discriminate].
    + apply Himport. eexists. split; [reflexivity|discriminate].
Defined.

(** The claim as stated fails on a field that is present but empty: this
    request carries [rssFeedUrl] and [taskId], and the job that reaches the
    queue has both flags off. *)
Lemma C7_counterexample :
  let env := sample_env (inr (sample_page None)) None None None in
  let body := sample_request (Some "u1") None (Some "") (Some "") in
  is_Some (req_rssFeedUrl body)
  /\ is_Some (req_taskId body)
  /\ exists job,
       submitted (trace env body) = [[job]]
       /\ job_isRss job = false
       /\ job_isImport job = false.
Proof.
  cbv zeta. split; [eexists; reflexivity|]. split; [eexists; reflexivity|].
  eexists. split; [reflexivity|]. split; reflexivity.
Qed.

(** ** Failure of the queue *)

(** What a failure of the queue leads to: status 500, the thrown error's
    text in [logRecord.error], and one event for the sink, whose [result]
    is [failure] only when that text is not empty. *)
Lemma queue_failure_reported (env : Env) (body : RequestBody)
    (fetchResult : FetchResult) (e : JsThrown) :
  fetch_outcome env body = inr fetchResult ->
  store_succeeds env fetchResult ->
  enqueue_outcome env body fetchResult = inl e ->
  statuses (trace env body) = [500]
  /\ log_error (final_log env body) = Some (error_text e)
  /\ exists ev,
       captured (trace env body) = [(map u_id (users_of body), ev)]
       /\ ev_result ev
          = if truthy (Some (error_text e)) then failure else success.
Proof.
  intros Hfetch Hstore Hqueue. use_outcomes. unfold_handler.
  rewrite Hfetch. cbn.
  destruct (nonempty (fr_content fetchResult)) as [c|] eqn:Hc; cbn.
  - specialize (Hstore c eq_refl). cbn in Hstore. rewrite Hstore. cbn.
    cbn in Hqueue. rewrite Hqueue. cbn.
    split_sink env; repeat split; eexists; split; reflexivity.
  - cbn in Hqueue. rewrite Hqueue. cbn.
    split_sink env; repeat split; eexists; split; reflexivity.
Qed.

(** C8, the failing run: the queue rejects the batch with an [Error] whose
    message is empty.  Status 500 is sent, but the recorded error message is
    the empty string and the one event given to the sink says [success]. *)
Theorem C8_queue_failure_empty_message :
  let env := sample_env (inr (sample_page None)) None (Some (JsError ""))
                        None in
  let body := sample_request (Some "u1") None None None in
  enqueue_outcome env body (sample_page None) = inl (JsError "")
  /\ statuses (trace env body) = [500]
  /\ log_error (final_log env body) = Some ""
  /\ captured (trace env body)
     = [(["u1"], mkAnalyticEvent success "https://a.com" (Some 250))].
Proof. cbv zeta. repeat split. Qed.

(** ** Failure of the sink *)

(** C9, as amended: the handler does not catch what [analytics.capture]
    throws.  When a pipeline step failed (an error was recorded), status 500
    was sent before the sink is called and is the one status sent, whether
    or not the sink throws.  When no step failed, status 200 is sent exactly
    when the sink does not throw; otherwise no status is sent.  Whenever the
    sink throws, the handler ends by throwing that same value. *)
Theorem C9_sink_failure_propagates (env : Env) (body : RequestBody) :
  exists ev,
    captured (trace env body) = [(map u_id (users_of body), ev)]
    /\ statuses (trace env body)
       = match log_error (final_log env body),
               analytics_capture env (map u_id (users_of body)) ev with
         | Some _, _ => [500]
         | None, None => [200]
         | None, Some _ => []
         end
    /\ completion env body
       = match analytics_capture env (map u_id (users_of body)) ev,
               log_error (final_log env body) with
         | Some e, _ => Throw e
         | None, Some _ => Return
         | None, None => Normal tt
         end.
Proof.
  unfold_handler. cbn.
  destruct (fetchContent env _ _ _) as [e|fr]; cbn.
  - finish_sink env.
  - destruct (nonempty (fr_content fr)) as [c|]; cbn.
    + split_store env; [|split_queue env]; finish_sink env.
    + split_queue env; finish_sink env.
Qed.

(** The claim as stated fails: two runs of the same request against
    collaborators that differ only in the sink.  Fetch and enqueue succeed
    in both; where the sink throws, no status is sent at all. *)
Lemma C9_counterexample :
  let body := sample_request (Some "u1") None None None in
  let quiet := sample_env (inr (sample_page None)) None None None in
  let failing := sample_env (inr (sample_page None)) None None
                            (Some (JsError "sink down")) in
  statuses (trace quiet body) = [200]
  /\ completion quiet body = Normal tt
  /\ statuses (trace failing body) = []
  /\ completion failing body = Throw (JsError "sink down")
  /\ submitted (trace failing body) = submitted (trace quiet body).
Proof. cbv zeta. repeat split. Qed.

(** ** Normalization of the recipients *)

(** C10, as amended: when [userId] is present and is not the empty string,
    the recipient list is the single recipient made of the request's
    [userId] and [folder], whatever the [users] list holds. *)
Theorem C10_userId_overrides_users (body : RequestBody) (userId : string) :
  req_userId body = Some userId ->
  userId <> "" ->
  users_of body = [mkUser userId (req_folder body)].
Proof.
  intros Hid Hne. unfold users_of. rewrite Hid.
  destruct userId as [|a s]; [contradiction|reflexivity].
Qed.

Lemma C10_userId_overrides_users_witness :
  users_of (sample_request (Some "u9") (Some [u1; u2]) None None)
  = [mkUser "u9" (Some "inbox")].
Proof.
  apply (C10_userId_overrides_users
           (sample_request (Some "u9") (Some [u1; u2]) None None) "u9").
  - reflexivity.
  - discriminate.
Defined.

(** The claim as stated fails on a [userId] that is present but empty: the
    explicit list is kept. *)
Lemma C10_counterexample :
  let body := sample_request (Some "") (Some [u1; u2]) None None in
  req_userId body = Some ""
  /\ users_of body = [u1; u2]
  /\ users_of body <> [mkUser "" (req_folder body)].
Proof. cbv zeta. repeat split. discriminate. Qed.

(** * Further properties of the handler *)

(** ** Shared facts *)

(** Once the fetch has succeeded, the bucket sees one write when the content
    is truthy and none otherwise, whatever happens later in the run. *)
Lemma storage_writes_after_fetch (env : Env) (body : RequestBody)
    (fetchResult : FetchResult) :
  fetch_outcome env body = inr fetchResult ->
  storage_writes (trace env body)
  = match nonempty (fr_content fetchResult) with
    | Some c => [(bucketName env, "originalContent/" ++ hash env c, c)]
    | None => []
    end.
Proof.
  intros Hfetch. use_outcomes. unfold_handler. rewrite Hfetch. cbn.
  destruct (nonempty (fr_content fetchResult)) as [c|]; cbn.
  - split_store env; [|split_queue env]; split_sink env; reflexivity.
  - split_queue env; split_sink env; reflexivity.
Qed.

Lemma storage_writes_without_fetch (env : Env) (body : RequestBody)
    (e : JsThrown) :
  fetch_outcome env body = inl e ->
  storage_writes (trace env body) = [].
Proof.
  intros Hfetch. use_outcomes. unfold_handler. rewrite Hfetch. cbn.
  split_sink env; reflexivity.
Qed.

(** A batch reaches the queue only after a fetch that succeeded and a store
    that did not fail. *)
Lemma submitted_only_after_store (env : Env) (body : RequestBody)
    (jobs : list SavePageJob) :
  jobs ∈ submitted (trace env body) ->
  exists fetchResult,
    fetch_outcome env body = inr fetchResult
    /\ store_succeeds env fetchResult
    /\ jobs = savePageJobs body fetchResult
                (hash env <$> nonempty (fr_content fetchResult))
                (users_of body).
Proof.
  use_outcomes. unfold_handler.
  destruct (fetchContent env _ _ _) as [e|fr]; cbn.
  - split_sink env; intros H; apply elem_of_nil in H; contradiction.
  - destruct (nonempty (fr_content fr)) as [c|] eqn:Hc; cbn.
    + destruct (storage_save env _ _ _) as [e|] eqn:Hs; cbn.
      * split_sink env; intros H; apply elem_of_nil in H; contradiction.
      * intros H. exists fr. rewrite Hc. split; [reflexivity|].
        split.
        -- intros c' [= <-]. exact Hs.
        -- revert H. split_queue env; split_sink env; intros H;
             apply list_elem_of_singleton in H; exact H.
    + intros H. exists fr. rewrite Hc. split; [reflexivity|].
      split; [intros c' [=]|].
      revert H. split_queue env; split_sink env; intros H;
        apply list_elem_of_singleton in H; exact H.
Qed.

(** ** Order and number of the calls *)

(** Every run starts by logging the request and then calls [fetchContent],
    with the request's [url], [locale] and [timezone] as they came; it is
    the first call to a collaborator and it is not repeated. *)
Theorem fetch_first_and_once (env : Env) (body : RequestBody) :
  exists rest,
    trace env body
    = ConsoleLog "Article parsing request" (LogRec (initial_logRecord body))
      :: FetchContent (req_url body) (req_locale body) (req_timezone body)
      :: rest
    /\ fetch_calls rest = [].
Proof.
  unfold_handler. cbn.
  destruct (fetchContent env _ _ _) as [e|fr]; cbn.
  - split_sink env; eexists; split; reflexivity.
  - destruct (nonempty (fr_content fr)) as [c|]; cbn.
    + split_store env; [|split_queue env]; split_sink env;
        eexists; split; reflexivity.
    + split_queue env; split_sink env; eexists; split; reflexivity.
Qed.

Ltac pick_shape :=
  unfold run_shapes;
  repeat first [apply list_elem_of_here | apply list_elem_of_further].

(** The calls of every run follow one of the eight sequences of
    [run_shapes]: no collaborator is called twice, the write comes before
    the enqueue, status 500 is sent before the sink is called and status 200
    after it, and no run sends both. *)
Theorem calls_follow_run_shapes (env : Env) (body : RequestBody) :
  call_kinds (trace env body) ∈ run_shapes.
Proof.
  unfold_handler. cbn.
  destruct (fetchContent env _ _ _) as [e|fr]; cbn.
  - split_sink env; pick_shape.
  - destruct (nonempty (fr_content fr)) as [c|]; cbn.
    + split_store env; [|split_queue env]; split_sink env; pick_shape.
    + split_queue env; split_sink env; pick_shape.
Qed.

(** ** Content addressing *)

(** Every write to the bucket goes to [bucketName], under
    [originalContent/] followed by the hash of the data written, and the
    data is the truthy content of the fetch result. *)
Theorem writes_are_content_addressed (env : Env) (body : RequestBody)
    (bucket path data : string) :
  (bucket, path, data) ∈ storage_writes (trace env body) ->
  bucket = bucketName env
  /\ path = "originalContent/" ++ hash env data
  /\ exists fetchResult,
       fetch_outcome env body = inr fetchResult
       /\ nonempty (fr_content fetchResult) = Some data.
Proof.
  intros Hin.
  destruct (fetch_outcome env body) as [e|fr] eqn:Hfetch.
  - rewrite (storage_writes_without_fetch env body e Hfetch) in Hin.
    apply elem_of_nil in Hin. contradiction.
  - rewrite (storage_writes_after_fetch env body fr Hfetch) in Hin.
    destruct (nonempty (fr_content fr)) as [c|] eqn:Hc.
    + apply list_elem_of_singleton in Hin. injection Hin as -> -> ->.
      split; [reflexivity|]. split; [reflexivity|].
      exists fr. split; [reflexivity|exact Hc].
    + apply elem_of_nil in Hin. contradiction.
Qed.

Lemma writes_are_content_addressed_witness :
  let env := sample_env (inr (sample_page (Some "<html>"))) None None None in
  let body := sample_request (Some "u1") None None None in
  "omnivore-files" = bucketName env
  /\ "originalContent/md5:<html>" = "originalContent/" ++ hash env "<html>"
  /\ exists fetchResult,
       fetch_outcome env body = inr fetchResult
       /\ nonempty (fr_content fetchResult) = Some "<html>".
Proof.
  intros env body.
  apply (writes_are_content_addressed env body).
  apply list_elem_of_In. left. reflexivity.
Defined.

(** When the fetch brings truthy content and the write succeeds, the
    content is written once under its hash and every job of the batch
    carries that hash as [contentHash]. *)
Theorem stored_content_hash_on_every_job (env : Env) (body : RequestBody)
    (fetchResult : FetchResult) (c : string) :
  fetch_outcome env body = inr fetchResult ->
  nonempty (fr_content fetchResult) = Some c ->
  upload_outcome env c = None ->
  storage_writes (trace env body)
    = [(bucketName env, "originalContent/" ++ hash env c, c)]
  /\ exists jobs,
       submitted (trace env body) = [jobs]
       /\ length jobs = length (users_of body)
       /\ Forall (fun job =>
                    data_contentHash (job_data job) = Some (hash env c))
                 jobs.
Proof.
  intros Hfetch Hc Hstore. split.
  - rewrite (storage_writes_after_fetch env body fetchResult Hfetch), Hc.
    reflexivity.
  - eexists. split; [|split].
    + apply (submitted_after_store env body fetchResult Hfetch).
      intros c' Hc'. rewrite Hc in Hc'. injection Hc' as <-. exact Hstore.
    + apply length_map.
    + rewrite Hc. apply Forall_forall. intros job Hjob.
      apply list_elem_of_In, in_map_iff in Hjob.
      destruct Hjob as (user & <- & _). reflexivity.
Qed.

Lemma stored_content_hash_on_every_job_witness :
  let env := sample_env (inr (sample_page (Some "<html>"))) None None None in
  let body := sample_request None (Some [u1; u2]) None None in
  storage_writes (trace env body)
    = [("omnivore-files", "originalContent/md5:<html>", "<html>")]
  /\ exists jobs,
       submitted (trace env body) = [jobs]
       /\ length jobs = 2%nat
       /\ Forall (fun job =>
                    data_contentHash (job_data job) = Some "md5:<html>")
                 jobs.
Proof.
  intros env body.
  apply (stored_content_hash_on_every_job env body
           (sample_page (Some "<html>")) "<html>"); reflexivity.
Defined.

(** No job reaches the queue with a digest that was not written: a job
    whose [contentHash] is set carries the hash of some content that this
    run wrote under that hash, in a write that did not fail. *)
Theorem no_dangling_digest (env : Env) (body : RequestBody)
    (jobs : list SavePageJob) (job : SavePageJob) (h : string) :
  jobs ∈ submitted (trace env body) ->
  job ∈ jobs ->
  data_contentHash (job_data job) = Some h ->
  exists c,
    h = hash env c
    /\ storage_writes (trace env body)
       = [(bucketName env, "originalContent/" ++ h, c)]
    /\ upload_outcome env c = None.
Proof.
  intros Hjobs Hjob Hh.
  destruct (submitted_only_after_store env body jobs Hjobs)
    as (fr & Hfetch & Hstore & ->).
  apply list_elem_of_In, in_map_iff in Hjob.
  destruct Hjob as (user & <- & _). cbn in Hh.
  rewrite (storage_writes_after_fetch env body fr Hfetch).
  destruct (nonempty (fr_content fr)) as [c|] eqn:Hc; [|discriminate].
  injection Hh as <-. exists c.
  split; [reflexivity|]. split; [reflexivity|]. apply Hstore. exact Hc.
Qed.

Lemma no_dangling_digest_witness :
  let env := sample_env (inr (sample_page (Some "<html>"))) None None None in
  let body := sample_request (Some "u1") None None None in
  exists c,
    "md5:<html>" = hash env c
    /\ storage_writes (trace env body)
       = [(bucketName env, "originalContent/" ++ "md5:<html>", c)]
    /\ upload_outcome env c = None.
Proof.
  intros env body.
  apply (no_dangling_digest env body
           [savePageJob body (sample_page (Some "<html>")) (Some "md5:<html>")
                        (mkUser "u1" (Some "inbox"))]
           (savePageJob body (sample_page (Some "<html>")) (Some "md5:<html>")
                        (mkUser "u1" (Some "inbox")))).
  - apply list_elem_of_In. left. reflexivity.
  - apply list_elem_of_In. left. reflexivity.
  - reflexivity.
Defined.

(** Content that is the empty string counts as no content: nothing is
    written and every job of the batch has [contentHash] unset. *)
Theorem empty_content_is_not_stored (env : Env) (body : RequestBody)
    (fetchResult : FetchResult) :
  fetch_outcome env body = inr fetchResult ->
  fr_content fetchResult = Some "" ->
  storage_writes (trace env body) = []
  /\ exists jobs,
       submitted (trace env body) = [jobs]
       /\ length jobs = length (users_of body)
       /\ Forall (fun job => data_contentHash (job_data job) = None) jobs.
Proof.
  intros Hfetch Hempty. split.
  - rewrite (storage_writes_after_fetch env body fetchResult Hfetch), Hempty.
    reflexivity.
  - eexists. split; [|split].
    + apply (submitted_after_store env body fetchResult Hfetch).
      intros c Hc. rewrite Hempty in Hc. discriminate.
    + apply length_map.
    + rewrite Hempty. apply Forall_forall. intros job Hjob.
      apply list_elem_of_In, in_map_iff in Hjob.
      destruct Hjob as (user & <- & _). reflexivity.
Qed.

Lemma empty_content_is_not_stored_witness :
  let env := sample_env (inr (sample_page (Some ""))) None None None in
  let body := sample_request None (Some [u1; u2]) None None in
  storage_writes (trace env body) = []
  /\ exists jobs,
       submitted (trace env body) = [jobs]
       /\ length jobs = 2%nat
       /\ Forall (fun job => data_contentHash (job_data job) = None) jobs.
Proof.
  intros env body.
  apply (empty_content_is_not_stored env body (sample_page (Some "")));
    reflexivity.
Defined.

(** Two runs that fetch the same content write the same thing to the same
    place, whatever their requests and whatever else their collaborators
    answer, as long as they share the hash function and the bucket. *)
Theorem same_content_same_write (env1 env2 : Env) (body1 body2 : RequestBody)
    (fetched1 fetched2 : FetchResult) :
  (forall c, hash env1 c = hash env2 c) ->
  bucketName env1 = bucketName env2 ->
  fetch_outcome env1 body1 = inr fetched1 ->
  fetch_outcome env2 body2 = inr fetched2 ->
  nonempty (fr_content fetched1) = nonempty (fr_content fetched2) ->
  storage_writes (trace env1 body1) = storage_writes (trace env2 body2).
Proof.
  intros Hhash Hbucket Hf1 Hf2 Hsame.
  rewrite (storage_writes_after_fetch env1 body1 fetched1 Hf1).
  rewrite (storage_writes_after_fetch env2 body2 fetched2 Hf2).
  rewrite Hsame, Hbucket.
  destruct (nonempty (fr_content fetched2)) as [c|]; [|reflexivity].
  rewrite Hhash. reflexivity.
Qed.

Lemma same_content_same_write_witness :
  storage_writes
    (trace (sample_env (inr (sample_page (Some "<html>"))) None None None)
           (sample_request (Some "u1") None None None))
  = storage_writes
      (trace (sample_env (inr (sample_page (Some "<html>")))
                         None (Some JsNonError) None)
             (sample_request None (Some [u1; u2]) (Some "task-7") None)).
Proof.
  apply (same_content_same_write
           (sample_env (inr (sample_page (Some "<html>"))) None None None)
           (sample_env (inr (sample_page (Some "<html>")))
                       None (Some JsNonError) None)
           (sample_request (Some "u1") None None None)
           (sample_request None (Some [u1; u2]) (Some "task-7") None)
           (sample_page (Some "<html>")) (sample_page (Some "<html>")));
    reflexivity.
Defined.

(** ** Outcome of a run *)

(** When the fetch, the store and the enqueue succeed and the sink's call
    returns, the run records no error, gives the sink one [success] event
    with the url and the elapsed time, sends status 200 as its last call and
    ends normally. *)
Theorem successful_run (env : Env) (body : RequestBody)
    (fetchResult : FetchResult) (handles : list string) :
  fetch_outcome env body = inr fetchResult ->
  store_succeeds env fetchResult ->
  enqueue_outcome env body fetchResult = inr handles ->
  analytics_capture env (map u_id (users_of body))
    (mkAnalyticEvent success (req_url body)
                     (Some (Date_now env 1 - Date_now env 0))) = None ->
  log_error (final_log env body) = None
  /\ captured (trace env body)
     = [(map u_id (users_of body),
         mkAnalyticEvent success (req_url body)
                         (Some (Date_now env 1 - Date_now env 0)))]
  /\ statuses (trace env body) = [200]
  /\ last (trace env body) = Some (SendStatus 200)
  /\ completion env body = Normal tt.
Proof.
  intros Hfetch Hstore Hqueue Hsink.
  use_outcomes. unfold_handler. rewrite Hfetch. cbn.
  destruct (nonempty (fr_content fetchResult)) as [c|] eqn:Hc; cbn.
  - specialize (Hstore c eq_refl). cbn in Hstore. rewrite Hstore. cbn.
    cbn in Hqueue. rewrite Hqueue. cbn. rewrite Hsink. cbn.
    repeat split.
  - cbn in Hqueue. rewrite Hqueue. cbn. rewrite Hsink. cbn.
    repeat split.
Qed.

Lemma successful_run_witness :
  let env := sample_env (inr (sample_page (Some "<html>"))) None None None in
  let body := sample_request None (Some [u1; u2]) None None in
  log_error (final_log env body) = None
  /\ captured (trace env body)
     = [(["u1"; "u2"], mkAnalyticEvent success "https://a.com" (Some 250))]
  /\ statuses (trace env body) = [200]
  /\ last (trace env body) = Some (SendStatus 200)
  /\ completion env body = Normal tt.
Proof.
  intros env body.
  apply (successful_run env body (sample_page (Some "<html>")) ["u1"; "u2"]).
  - reflexivity.
  - intros c Hc. reflexivity.
  - reflexivity.
  - reflexivity.
Defined.

(** The record the run ends with is the record logged at the start with
    [totalTime] set and, when a step of the [try] block threw, [error] set
    to the text of the first step that threw (fetch, then store, then
    enqueue).  Nothing else changes; what the sink does is not recorded. *)
Theorem final_log_is_request_log_plus_outcome (env : Env)
    (body : RequestBody) :
  final_log env body
  = set_totalTime (Date_now env 1 - Date_now env 0)
      match pipeline_failure env body with
      | Some e => set_error (error_text e) (initial_logRecord body)
      | None => initial_logRecord body
      end.
Proof.
  unfold pipeline_failure. use_outcomes. unfold_handler. cbn.
  destruct (fetchContent env _ _ _) as [e|fr]; cbn.
  - split_sink env; reflexivity.
  - destruct (nonempty (fr_content fr)) as [c|]; cbn.
    + split_store env; [|split_queue env]; split_sink env; reflexivity.
    + split_queue env; split_sink env; reflexivity.
Qed.

(** A step that throws anything but an [Error] with an empty message makes
    the run a reported failure: status 500 is the one status sent and the
    one event given to the sink says [failure].  A thrown value that is not
    an [Error] is recorded as "unknown error". *)
Theorem failure_with_text_is_reported (env : Env) (body : RequestBody)
    (e : JsThrown) :
  pipeline_failure env body = Some e ->
  error_text e <> "" ->
  statuses (trace env body) = [500]
  /\ log_error (final_log env body) = Some (error_text e)
  /\ (e = JsNonError -> log_error (final_log env body) = Some "unknown error")
  /\ exists ev,
       captured (trace env body) = [(map u_id (users_of body), ev)]
       /\ ev_result ev = failure.
Proof.
  assert (Htruthy : forall m, m <> "" -> truthy (Some m) = true)
    by (intros [|a m] Hm; [contradiction|reflexivity]).
  unfold pipeline_failure. use_outcomes. unfold_handler. cbn.
  destruct (fetchContent env _ _ _) as [e0|fr]; cbn.
  - intros [= ->] Hm. split_sink env; repeat split;
      try (intros ->; reflexivity);
      eexists; (split; [reflexivity|]); cbn; rewrite (Htruthy _ Hm);
      reflexivity.
  - destruct (nonempty (fr_content fr)) as [c|]; cbn.
    + split_store env.
      * intros [= ->] Hm. split_sink env; repeat split;
          try (intros ->; reflexivity);
          eexists; (split; [reflexivity|]); cbn; rewrite (Htruthy _ Hm);
          reflexivity.
      * split_queue env; [|discriminate].
        intros [= ->] Hm. split_sink env; repeat split;
          try (intros ->; reflexivity);
          eexists; (split; [reflexivity|]); cbn; rewrite (Htruthy _ Hm);
          reflexivity.
    + split_queue env; [|discriminate].
      intros [= ->] Hm. split_sink env; repeat split;
        try (intros ->; reflexivity);
        eexists; (split; [reflexivity|]); cbn; rewrite (Htruthy _ Hm);
        reflexivity.
Qed.

Lemma failure_with_text_is_reported_witness :
  let env := sample_env (inr (sample_page (Some "<html>"))) None
                        (Some JsNonError) None in
  let body := sample_request (Some "u1") None None None in
  statuses (trace env body) = [500]
  /\ log_error (final_log env body) = Some "unknown error"
  /\ (JsNonError = JsNonError ->
      log_error (final_log env body) = Some "unknown error")
  /\ exists ev,
       captured (trace env body) = [(["u1"], ev)]
       /\ ev_result ev = failure.
Proof.
  intros env body.
  apply (failure_with_text_is_reported env body JsNonError).
  - reflexivity.
  - discriminate.
Defined.

(** ** The jobs *)

(** Every job that reaches the queue repeats the request's shared fields
    and priority and the fetch result's [finalUrl], [title] and
    [contentType] as they are, and carries its user's id at both levels. *)
Theorem job_fields_are_copied (env : Env) (body : RequestBody)
    (fetchResult : FetchResult) (jobs : list SavePageJob)
    (job : SavePageJob) :
  fetch_outcome env body = inr fetchResult ->
  jobs ∈ submitted (trace env body) ->
  job ∈ jobs ->
  data_userId (job_data job) = job_userId job
  /\ data_url (job_data job) = req_url body
  /\ data_articleSavingRequestId (job_data job) = req_saveRequestId body
  /\ data_state (job_data job) = req_state body
  /\ data_labels (job_data job) = req_labels body
  /\ data_rssFeedUrl (job_data job) = req_rssFeedUrl body
  /\ data_savedAt (job_data job) = req_savedAt body
  /\ data_publishedAt (job_data job) = req_publishedAt body
  /\ data_taskId (job_data job) = req_taskId body
  /\ job_priority job = req_priority body
  /\ data_finalUrl (job_data job) = fr_finalUrl fetchResult
  /\ data_title (job_data job) = fr_title fetchResult
  /\ data_contentType (job_data job) = fr_contentType fetchResult.
Proof.
  intros Hfetch Hjobs Hjob.
  destruct (submitted_only_after_store env body jobs Hjobs)
    as (fr & Hfetch' & _ & ->).
  rewrite Hfetch in Hfetch'. injection Hfetch' as <-.
  apply list_elem_of_In, in_map_iff in Hjob.
  destruct Hjob as (user & <- & _). cbn. repeat split.
Qed.

Lemma job_fields_are_copied_witness :
  let env := sample_env (inr (sample_page None)) None None None in
  let body := sample_request (Some "u1") None (Some "task-7") None in
  let job := savePageJob body (sample_page None) None
                         (mkUser "u1" (Some "inbox")) in
  data_taskId (job_data job) = Some "task-7"
  /\ job_priority job = high
  /\ data_finalUrl (job_data job) = "https://a.com/amp".
Proof.
  intros env body job.
  destruct (job_fields_are_copied env body (sample_page None) [job] job)
    as (_ & _ & _ & _ & _ & _ & _ & _ & Htask & Hprio & Hfinal & _).
  - reflexivity.
  - apply list_elem_of_In. left. reflexivity.
  - apply list_elem_of_In. left. reflexivity.
  - split; [exact Htask|]. split; [exact Hprio|exact Hfinal].
Defined.

(** The [source] of every job is the request's [source] when that is a
    non-empty string, and "puppeteer-parse" when it is missing or empty;
    the log record carries the same value. *)
Theorem job_source_defaults (env : Env) (body : RequestBody)
    (jobs : list SavePageJob) (job : SavePageJob) :
  jobs ∈ submitted (trace env body) ->
  job ∈ jobs ->
  data_source (job_data job) = log_labels_source (final_log env body)
  /\ (forall s, req_source body = Some s -> s <> "" ->
                data_source (job_data job) = s)
  /\ (req_source body = None \/ req_source body = Some "" ->
      data_source (job_data job) = "puppeteer-parse").
Proof.
  intros Hjobs Hjob.
  destruct (emitted_job_inv env body jobs job Hjobs Hjob)
    as (fr & h & user & _ & ->).
  cbn. split; [|split].
  - clear. unfold_handler. cbn.
    destruct (fetchContent env _ _ _) as [e|fr]; cbn.
    + split_sink env; reflexivity.
    + destruct (nonempty (fr_content fr)) as [c|]; cbn.
      * split_store env; [|split_queue env]; split_sink env; reflexivity.
      * split_queue env; split_sink env; reflexivity.
  - intros s -> Hs. destruct s as [|a s]; [contradiction|reflexivity].
  - intros [-> | ->]; reflexivity.
Qed.

Lemma job_source_defaults_witness :
  let env := sample_env (inr (sample_page None)) None None None in
  let body := sample_request (Some "u1") None None None in
  let job := savePageJob body (sample_page None) None
                         (mkUser "u1" (Some "inbox")) in
  data_source (job_data job) = "puppeteer-parse".
Proof.
  intros env body job.
  destruct (job_source_defaults env body [job] job) as (_ & _ & Hdefault).
  - apply list_elem_of_In. left. reflexivity.
  - apply list_elem_of_In. left. reflexivity.
  - apply Hdefault. left. reflexivity.
Defined.

(** ** The top-level folder *)

(** Without a truthy [userId] the request's top-level [folder] plays no
    part: changing it changes neither the calls made, nor the record
    logged, nor the way the handler ends; the jobs of a batch carry, in
    order, the folders of the entries of the [users] list. *)
Theorem folder_unused_without_userId (env : Env) (body : RequestBody)
    (folder : option string) :
  nonempty (req_userId body) = None ->
  contentFetchRequestHandler env (with_folder folder body)
  = contentFetchRequestHandler env body
  /\ forall jobs,
       jobs ∈ submitted (trace env (with_folder folder body)) ->
       map (fun job => data_folder (job_data job)) jobs
       = map u_folder (default [] (req_users body)).
Proof.
  intros Hid.
  assert (Husers : users_of (with_folder folder body)
                   = default [] (req_users body))
    by (unfold users_of; cbn; rewrite Hid; reflexivity).
  split.
  - unfold contentFetchRequestHandler, try_block, finally_block,
      initial_logRecord, savePageJobs, savePageJob.
    rewrite Husers. unfold users_of. rewrite Hid. reflexivity.
  - intros jobs Hjobs.
    destruct (submitted_only_after_store env _ jobs Hjobs)
      as (fr & _ & _ & ->).
    rewrite Husers. unfold savePageJobs. rewrite map_map. reflexivity.
Qed.

Lemma folder_unused_without_userId_witness :
  let env := sample_env (inr (sample_page (Some "<html>"))) None None None in
  let body := sample_request None (Some [u1; u2]) None None in
  contentFetchRequestHandler env (with_folder (Some "later") body)
  = contentFetchRequestHandler env body
  /\ exists jobs,
       submitted (trace env (with_folder (Some "later") body)) = [jobs]
       /\ map (fun job => data_folder (job_data job)) jobs
          = [None; Some "archive"].
Proof.
  intros env body.
  destruct (folder_unused_without_userId env body (Some "later") eq_refl)
    as [Hsame Hfolders].
  split; [exact Hsame|].
  eexists. split; [reflexivity|].
  apply Hfolders. apply list_elem_of_In. left. reflexivity.
Defined.

(** ** The bucket *)

(** Every write goes to the bucket named by [GCS_UPLOAD_BUCKET] when that
    variable holds a non-empty string, and to "omnivore-files" when it is
    unset or empty. *)
Theorem bucket_defaults (env : Env) (body : RequestBody)
    (bucket path data : string) :
  (bucket, path, data) ∈ storage_writes (trace env body) ->
  (forall b, GCS_UPLOAD_BUCKET env = Some b -> b <> "" -> bucket = b)
  /\ (GCS_UPLOAD_BUCKET env = None \/ GCS_UPLOAD_BUCKET env = Some "" ->
      bucket = "omnivore-files").
Proof.
  intros Hin.
  assert (Hbucket : bucket = bucketName env).
  { destruct (fetch_outcome env body) as [e|fr] eqn:Hfetch.
    - rewrite (storage_writes_without_fetch env body e Hfetch) in Hin.
      apply elem_of_nil in Hin. contradiction.
    - rewrite (storage_writes_after_fetch env body fr Hfetch) in Hin.
      destruct (nonempty (fr_content fr)) as [c|].
      + apply list_elem_of_singleton in Hin. injection Hin as -> _ _.
        reflexivity.
      + apply elem_of_nil in Hin. contradiction. }
  subst bucket. unfold bucketName, or_default. split.
  - intros b -> Hb. destruct b as [|a b]; [contradiction|reflexivity].
  - intros [-> | ->]; reflexivity.
Qed.

Lemma bucket_defaults_witness :
  let env := sample_env (inr (sample_page (Some "<html>"))) None None None in
  let body := sample_request (Some "u1") None None None in
  exists bucket,
    (bucket, "originalContent/md5:<html>", "<html>")
      ∈ storage_writes (trace env body)
    /\ bucket = "omnivore-files".
Proof.
  intros env body.
  assert (Hin : ("omnivore-files", "originalContent/md5:<html>", "<html>")
                  ∈ storage_writes (trace env body))
    by (apply list_elem_of_In; left; reflexivity).
  exists "omnivore-files". split; [exact Hin|].
  apply (bucket_defaults env body _ _ _ Hin). left. reflexivity.
Defined.
